(** * friendli/sdk/api/base.py: request construction and response dispatch

    A shallow embedding of [BaseAPI], [ServingAPI] and [AsyncServingAPI]
    from [friendli/sdk/api/base.py], and the properties of the request
    builder, the error translator and the two call executors.

    Conventions.
    - A Python [str] is represented by its UTF-8 encoding, held in a
      [string]; [bytes] is [list byte].  [bytes.decode()] is then the
      identity on well-formed UTF-8 and raises on anything else.
    - A Python [dict] with string keys is a [gmap string _]: what each key
      holds, not the order the keys were inserted in.
    - [os.path] is [posixpath] (separator [/]).
    - Methods run in a state-and-exception monad [M] over a [World]: the
      dict object the caller passed as [data] (caller and callee share it)
      and the trace of the operations performed on the HTTP client. *)

From Stdlib Require Import ZArith NArith Strings.Byte Ascii String List DecimalString.
From stdpp Require Import gmap strings list fin_maps.

Local Open Scope string_scope.

(** ** Strings and POSIX paths *)

(** [s.startswith(p)] *)
Definition startswith (s p : string) : bool := String.prefix p s.

(** [s.endswith("/")] *)
Fixpoint endswith_sep (s : string) : bool :=
  match s with
  | EmptyString => false
  | String c EmptyString => Ascii.eqb c "/"
  | String _ r => endswith_sep r
  end.

(** [posixpath.join(a, b)] for two components: an absolute [b] replaces
    what came before it; otherwise [b] is appended, with a separator
    unless [a] is empty or already ends in one. *)
Definition os_path_join (a b : string) : string :=
  if startswith b "/" then b
  else if String.eqb a "" || endswith_sep a then a +:+ b
  else a +:+ "/" +:+ b.

(** [s.split("/")]: the segments of a path. *)
Fixpoint split_sep (s : string) : list string :=
  match s with
  | EmptyString => [ EmptyString ]
  | String c r =>
      if Ascii.eqb c "/" then EmptyString :: split_sep r
      else match split_sep r with
           | [] => [ String c EmptyString ]
           | h :: t => String c h :: t
           end
  end.

(** The path has a segment equal to [seg]. *)
Definition has_segment (seg path : string) : bool :=
  existsb (String.eqb seg) (split_sep path).


(** ** Bytes and UTF-8 *)

Definition bytes : Type := list byte.

Definition in_range (lo hi b : N) : bool := ((lo <=? b) && (b <=? hi))%N.

Definition is_cont (b : N) : bool := in_range 0x80 0xBF b.

Definition two_ok (b0 b1 : N) : bool := in_range 0xC2 0xDF b0 && is_cont b1.

Definition three_ok (b0 b1 b2 : N) : bool :=
  ((N.eqb b0 0xE0 && in_range 0xA0 0xBF b1)
   || (in_range 0xE1 0xEC b0 && is_cont b1)
   || (N.eqb b0 0xED && in_range 0x80 0x9F b1)
   || (in_range 0xEE 0xEF b0 && is_cont b1))
  && is_cont b2.

Definition four_ok (b0 b1 b2 b3 : N) : bool :=
  ((N.eqb b0 0xF0 && in_range 0x90 0xBF b1)
   || (in_range 0xF1 0xF3 b0 && is_cont b1)
   || (N.eqb b0 0xF4 && in_range 0x80 0x8F b1))
  && is_cont b2 && is_cont b3.

(** Well-formed UTF-8 (no overlong forms, no surrogates, at most U+10FFFF):
    what the strict decoder of [bytes.decode()] accepts. *)
Fixpoint valid_utf8 (l : list N) : bool :=
  match l with
  | [] => true
  | b0 :: r0 =>
      if (b0 <=? 0x7F)%N then valid_utf8 r0
      else match r0 with
           | [] => false
           | b1 :: r1 =>
               if two_ok b0 b1 then valid_utf8 r1
               else match r1 with
                    | [] => false
                    | b2 :: r2 =>
                        if three_ok b0 b1 b2 then valid_utf8 r2
                        else match r2 with
                             | [] => false
                             | b3 :: r3 => four_ok b0 b1 b2 b3 && valid_utf8 r3
                             end
                    end
           end
  end.

(** [b.decode()]: strict UTF-8. *)
Definition utf8_decode (b : bytes) : option string :=
  if valid_utf8 (map Byte.to_N b) then Some (string_of_list_byte b) else None.

(** ** Data model *)

(** Python values a payload can hold (floats are left out; nothing below
    looks inside a value except to compare it with [None]). *)
#[warnings="-register-all"]
Inductive Value : Type :=
| VNone
| VBool (b : bool)
| VInt (n : Z)
| VStr (s : string)
| VBytes (b : bytes)
| VList (l : list Value)
| VDict (l : list (string * Value)).

(** [val is not None] *)
Definition is_not_None (v : Value) : bool :=
  match v with
  | VNone => false
  | _ => true
  end.

(** The Python value of an [Optional[str]]. *)
Definition of_optional (o : option string) : Value :=
  match o with
  | Some s => VStr s
  | None => VNone
  end.

(** Logical payload: [dict[str, Any]]. *)
Abbreviation Payload := (gmap string Value).

(** A file part of a multipart body: [(filename, value)]. *)
Definition FilePart : Type := option string * Value.

(** Transport response: the status line and the body the server sends.
    The body is the same whether it was buffered by [send] or is still to
    be pulled from the stream by [read]. *)
Record Response : Type := mkResponse {
  status_code : Z;
  resp_body : bytes
}.

(** Exceptions.  [APIError msg cause] is [raise APIError(msg) from cause]. *)
Inductive Exn : Type :=
| ValueError (msg : string)
| HTTPStatusError (response : Response)
| APIError (msg : string) (cause : Exn)
| UnicodeDecodeError
| OtherError (name : string) (msg : string).

(** [except httpx.HTTPStatusError] *)
Definition is_HTTPStatusError (e : Exn) : bool :=
  match e with
  | HTTPStatusError _ => true
  | _ => false
  end.

(** [_ProtoMsgType]: the request message classes of the binary schema. *)
Inductive ProtoMsgType : Type :=
| V1CompletionsRequest
| V1ChatCompletionsRequest
| V1TextToImageRequest.

(** What [base.py] imports and does not define: [httpx.URL], with
    [url_eq_str u s] for [u == s] and [url_join u path] for [u.join(path)];
    the serializers [json.dumps(d).encode()] and
    [json_format.ParseDict(d, cls()).SerializeToString()] (both may raise);
    [friendli.auth.get_auth_header] and
    [friendli.utils.request.DEFAULT_REQ_TIMEOUT]. *)
Class Collaborators : Type := {
  URL : Type;
  url_eq_str : URL -> string -> bool;
  url_join : URL -> string -> URL;
  Timeout : Type;
  DEFAULT_REQ_TIMEOUT : Timeout;
  get_auth_header : gmap string string;
  json_dumps_encode : Payload -> Exn + bytes;
  pb_parse_serialize : ProtoMsgType -> Payload -> Exn + bytes
}.

(** Transport request, as handed to [httpx.Client.build_request]. *)
Record Request `{Collaborators} : Type := mkRequest {
  req_method : string;
  req_url : URL;
  req_content : option bytes;
  req_files : option (gmap string FilePart);
  req_headers : gmap string string;
  req_timeout : Timeout
}.

Arguments mkRequest {_} _ _ _ _ _ _.

(** Operations on the HTTP client and on a response, in program order. *)
Inductive Event `{Collaborators} : Type :=
| EvBuildRequest (r : Request)
| EvSend (r : Request) (stream : bool)
| EvRead (r : Response).

Arguments EvBuildRequest {_} _.
Arguments EvSend {_} _ _.
Arguments EvRead {_} _.

Record World `{Collaborators} : Type := mkWorld {
  data : Payload;
  trace : list Event
}.

Arguments mkWorld {_} _ _.

(** ** The monad *)

Section Monad.
Context `{Collaborators}.

Definition M (A : Type) : Type := World -> World * (Exn + A).

Definition ret {A} (a : A) : M A := fun w => (w, inr a).

Definition raise {A} (e : Exn) : M A := fun w => (w, inl e).

Definition bind {A B} (m : M A) (k : A -> M B) : M B :=
  fun w =>
    match m w with
    | (w', inl e) => (w', inl e)
    | (w', inr a) => k a w'
    end.

(** A pure computation that may raise. *)
Definition lift {A} (r : Exn + A) : M A := fun w => (w, r).

(** [try: m  except cls as exc: h exc] *)
Definition try_except {A} (m : M A) (cls : Exn -> bool) (h : Exn -> M A) : M A :=
  fun w =>
    match m w with
    | (w', inl e) => if cls e then h e w' else (w', inl e)
    | r => r
    end.

(** [data[k] = v] on the caller's dict. *)
Definition setitem (k : string) (v : Value) : M unit :=
  fun w => (mkWorld (<[k := v]> (data w)) (trace w), inr tt).

(** Reading the caller's dict. *)
Definition get_data : M Payload := fun w => (w, inr (data w)).

Definition emit (e : Event) : M unit :=
  fun w => (mkWorld (data w) (trace w ++ [e]), inr tt).
End Monad.

Notation "x <- m ;; k" := (bind m (fun x => k))
  (at level 100, m at next level, right associativity).
Notation "m ;;; k" := (bind m (fun _ => k))
  (at level 100, right associativity).

(** [x is not None] for an [Optional[str]]. *)
Definition is_set (o : option string) : bool :=
  match o with
  | Some _ => true
  | None => false
  end.

(** ** httpx: responses and the client *)

(** [Response.is_success]: a 2xx status. *)
Definition is_success (r : Response) : bool :=
  ((200 <=? status_code r) && (status_code r <=? 299))%Z.

(** [Response.raise_for_status()]: raises [HTTPStatusError] unless the
    status is 2xx. *)
Definition raise_for_status (r : Response) : Exn + unit :=
  if is_success r then inr tt else inl (HTTPStatusError r).

(** [resp_content.decode()] *)
Definition decode (b : bytes) : Exn + string :=
  match utf8_decode b with
  | Some s => inr s
  | None => inl UnicodeDecodeError
  end.

Section Httpx.
Context `{Collaborators}.

(** [client.build_request(...)] *)
Definition client_build_request (r : Request) : M Request :=
  emit (EvBuildRequest r) ;;; ret r.

(** [response.read()] and [await response.aread()]: the whole body,
    pulled from the stream if it is still there. *)
Definition read (r : Response) : M bytes :=
  emit (EvRead r) ;;; ret (resp_body r).
End Httpx.

(** ** class BaseAPI

    The parameter [data] of the methods is the dict of the world: every
    method is handed the one object the caller passed, so a store made by
    one is seen by the next and by the caller. *)

Module BaseAPI.
Section BaseAPI.
Context `{Collaborators}.

(** The attributes set by [__init__], the abstract properties a concrete
    API overrides, and the client: [_client r stream] is what
    [self._client.send(request=r, stream=stream)] comes back with, a
    response or a transport error. *)
Record t : Type := mk {
  _endpoint_id : option string;
  _host : URL;
  _use_protobuf : bool;
  _api_path : string;
  _method : string;
  _content_type : string;
  _request_pb_cls : ProtoMsgType;
  _client : Request -> bool -> Exn + Response
}.

(** The local [path] of [_build_url], after the join. *)
Definition _build_url_path (self : t) : string :=
  let path := "" in
  let path := if is_set (_endpoint_id self) then "dedicated" else path in
  os_path_join path (_api_path self).

Definition _build_url (self : t) : URL :=
  url_join (_host self) (_build_url_path self).

(** [{"Content-Type": ..., **get_auth_header()}]: later keys win. *)
Definition _get_headers (self : t) : gmap string string :=
  get_auth_header ∪ {[ "Content-Type" := _content_type self ]}.

(** One turn of the loop of [_build_files]. *)
Definition add_file (key : string) (val : Value)
    (files : gmap string FilePart) : gmap string FilePart :=
  if is_not_None val then <[ key := (None, val) ]> files else files.

Definition _build_files (self : t) : M (option (gmap string FilePart)) :=
  if startswith (_content_type self) "multipart/form-data" then
    d <- get_data ;;
    ret (Some (map_fold add_file ∅ d))
  else ret None.

Definition _build_content (self : t) (model : option string) : M (option bytes) :=
  match _endpoint_id self with
  | Some endpoint_id => setitem "model" (VStr endpoint_id)
  | None => setitem "model" (of_optional model)
  end ;;;
  if startswith (_content_type self) "multipart/form-data" then ret None
  else if _use_protobuf self then
    d <- get_data ;;
    b <- lift (pb_parse_serialize (_request_pb_cls self) d) ;;
    ret (Some b)
  else
    d <- get_data ;;
    b <- lift (json_dumps_encode d) ;;
    ret (Some b).

(** Keyword arguments are evaluated in the order they are written:
    the URL, the content, the files, the headers. *)
Definition _build_request (self : t) (model : option string) : M Request :=
  url <- ret (_build_url self) ;;
  content <- _build_content self model ;;
  files <- _build_files self ;;
  headers <- ret (_get_headers self) ;;
  client_build_request
    (mkRequest (_method self) url content files headers DEFAULT_REQ_TIMEOUT).

(** [self._client.send(request=request, stream=stream)] *)
Definition client_send (self : t) (request : Request) (stream : bool) : M Response :=
  emit (EvSend request stream) ;;; lift (_client self request stream).
End BaseAPI.
End BaseAPI.

Import BaseAPI.

(** The message of the error raised on a 404. *)
Definition NOT_FOUND_MESSAGE : string :=
  "Endpoint is not found. This may be due to an invalid model name. "
  +:+ "See https://docs.friendli.ai/guides/serverless_endpoints/pricing "
  +:+ "to find out availble models.".

(** ** class ServingAPI *)

Module ServingAPI.
Section ServingAPI.
Context `{Collaborators}.

(** The two checks at the head of [_request]. *)
Definition check_preconditions (self : BaseAPI.t) (model : option string) : Exn + unit :=
  if url_eq_str (_host self) "https://inference.friendli.ai"
     && negb (is_set (_endpoint_id self))
     && negb (is_set model)
  then inl (ValueError "`model` is required for serverless endpoints.")
  else if is_set (_endpoint_id self) && is_set model
  then inl (ValueError "`model` is not allowed for dedicated endpoints.")
  else inr tt.

Definition _check_http_error (response : Response) : M unit :=
  try_except (lift (raise_for_status response)) is_HTTPStatusError
    (fun exc =>
       if (status_code response =? 404)%Z then
         raise (APIError NOT_FOUND_MESSAGE exc)
       else
         resp_content <- read response ;;
         msg <- lift (decode resp_content) ;;
         raise (APIError msg exc)).

Definition _request (self : BaseAPI.t) (stream : bool) (model : option string)
    : M Response :=
  lift (check_preconditions self model) ;;;
  request <- _build_request self model ;;
  response <- client_send self request stream ;;
  _check_http_error response ;;;
  ret response.
End ServingAPI.
End ServingAPI.

(** ** class AsyncServingAPI *)

Module AsyncServingAPI.
Section AsyncServingAPI.
Context `{Collaborators}.

(** The two checks at the head of [_request]. *)
Definition check_preconditions (self : BaseAPI.t) (model : option string) : Exn + unit :=
  if negb (is_set (_endpoint_id self)) && negb (is_set model)
  then inl (ValueError "`model` is required for serverless endpoints.")
  else if is_set (_endpoint_id self) && is_set model
  then inl (ValueError "`model` is not allowed for dedicated endpoints.")
  else inr tt.

Definition _check_http_error (response : Response) : M unit :=
  try_except (lift (raise_for_status response)) is_HTTPStatusError
    (fun exc =>
       if (status_code response =? 404)%Z then
         raise (APIError NOT_FOUND_MESSAGE exc)
       else
         resp_content <- read response ;;
         msg <- lift (decode resp_content) ;;
         raise (APIError msg exc)).

Definition _request (self : BaseAPI.t) (stream : bool) (model : option string)
    : M Response :=
  lift (check_preconditions self model) ;;;
  request <- _build_request self model ;;
  response <- client_send self request stream ;;
  _check_http_error response ;;;
  ret response.
End AsyncServingAPI.
End AsyncServingAPI.

(** ** Vocabulary of the properties *)

(** The value [_build_content] stores under ["model"]. *)
Definition resolved_model `{Collaborators} (self : BaseAPI.t) (model : option string) : Value :=
  match _endpoint_id self with
  | Some endpoint_id => VStr endpoint_id
  | None => of_optional model
  end.

(** Exactly one of [endpoint_id] and [model] is set. *)
Definition exactly_one `{Collaborators} (self : BaseAPI.t) (model : option string) : bool :=
  xorb (is_set (_endpoint_id self)) (is_set model).

(** The file part a payload field turns into, if any. *)
Definition file_part (v : Value) : option FilePart :=
  if is_not_None v then Some (None, v) else None.

(** A content result wrapped the way [_build_content] returns it. *)
Definition some_content (r : Exn + bytes) : Exn + option bytes :=
  match r with
  | inl e => inl e
  | inr b => inr (Some b)
  end.

(** The body [_build_content] returns for a payload that already carries
    its model. *)
Definition content_of `{Collaborators} (self : BaseAPI.t) (d : Payload) : Exn + option bytes :=
  if startswith (_content_type self) "multipart/form-data" then inr None
  else if _use_protobuf self
       then some_content (pb_parse_serialize (_request_pb_cls self) d)
       else some_content (json_dumps_encode d).

(** The files [_build_files] returns for a payload. *)
Definition files_of `{Collaborators} (self : BaseAPI.t) (d : Payload)
    : option (gmap string FilePart) :=
  if startswith (_content_type self) "multipart/form-data"
  then Some (map_fold add_file ∅ d) else None.

(** The request built from a body and a payload. *)
Definition request_of `{Collaborators} (self : BaseAPI.t) (content : option bytes)
    (d : Payload) : Request :=
  mkRequest (_method self) (_build_url self) content (files_of self d)
    (_get_headers self) DEFAULT_REQ_TIMEOUT.

(** The message of the precondition error for a call that breaks the rule. *)
Definition precondition_message `{Collaborators} (self : BaseAPI.t) : string :=
  if is_set (_endpoint_id self)
  then "`model` is not allowed for dedicated endpoints."
  else "`model` is required for serverless endpoints.".

(** A world with one more operation in its trace. *)
Definition logged `{Collaborators} (w : World) (e : Event) : World :=
  mkWorld (data w) (trace w ++ [e]).

(** What the error translator does with a response: nothing on a 2xx,
    the fixed message on a 404, the decoded body otherwise. *)
Definition translated `{Collaborators} (response : Response) (w : World)
    : World * (Exn + unit) :=
  if is_success response then (w, inr tt)
  else if (status_code response =? 404)%Z
       then (w, inl (APIError NOT_FOUND_MESSAGE (HTTPStatusError response)))
       else (logged w (EvRead response),
             match utf8_decode (resp_body response) with
             | Some msg => inl (APIError msg (HTTPStatusError response))
             | None => inl UnicodeDecodeError
             end).

(** What an executor does once its checks have passed. *)
Definition performed `{Collaborators} (self : BaseAPI.t) (stream : bool)
    (model : option string) (w : World) : World * (Exn + Response) :=
  match _build_request self model w with
  | (w1, inl e) => (w1, inl e)
  | (w1, inr request) =>
      match _client self request stream with
      | inl e => (logged w1 (EvSend request stream), inl e)
      | inr response =>
          match translated response (logged w1 (EvSend request stream)) with
          | (w3, inl e) => (w3, inl e)
          | (w3, inr _) => (w3, inr response)
          end
      end
  end.

(** The same object with no endpoint id: the serverless call target. *)
Definition serverless `{Collaborators} (self : BaseAPI.t) : BaseAPI.t :=
  BaseAPI.mk None (_host self) (_use_protobuf self) (_api_path self) (_method self)
    (_content_type self) (_request_pb_cls self) (_client self).

(** ** A sample deployment

    Collaborators simple enough to run the methods on concrete calls:
    URLs in textual form, made of a scheme and an authority only, so that
    joining a path appends it; comparison of a URL with a string is textual;
    JSON for payloads of [None], booleans, integers, printable ASCII
    strings, lists and dicts of those, keys in the order of the map.  The
    binary schema is not part of the sample. *)

Module Sample.
Definition quote : string := String (ascii_of_N 34) EmptyString.

Definition json_char (c : ascii) : option string :=
  let n := N_of_ascii c in
  if (n =? 34)%N then Some ("\" +:+ quote)
  else if (n =? 92)%N then Some "\\"
  else if in_range 32 126 n then Some (String c EmptyString)
  else None.

Fixpoint json_chars (s : string) : option string :=
  match s with
  | EmptyString => Some EmptyString
  | String c r =>
      match json_char c, json_chars r with
      | Some a, Some b => Some (a +:+ b)
      | _, _ => None
      end
  end.

Definition json_str (s : string) : Exn + string :=
  match json_chars s with
  | Some e => inr (quote +:+ e +:+ quote)
  | None => inl (OtherError "Sample" "character outside printable ASCII")
  end.

Definition json_int (n : Z) : string :=
  DecimalString.NilZero.string_of_int (Z.to_int n).

Fixpoint commas (l : list string) : string :=
  match l with
  | [] => EmptyString
  | [ x ] => x
  | x :: r => x +:+ ", " +:+ commas r
  end.

Fixpoint json_value (v : Value) : Exn + string :=
  match v with
  | VNone => inr "null"
  | VBool true => inr "true"
  | VBool false => inr "false"
  | VInt n => inr (json_int n)
  | VStr s => json_str s
  | VBytes _ => inl (OtherError "TypeError" "Object of type bytes is not JSON serializable")
  | VList l =>
      match (fix items (l : list Value) : Exn + list string :=
               match l with
               | [] => inr []
               | x :: r =>
                   match json_value x with
                   | inl e => inl e
                   | inr a => match items r with
                              | inl e => inl e
                              | inr b => inr (a :: b)
                              end
                   end
               end) l with
      | inl e => inl e
      | inr parts => inr ("[" +:+ commas parts +:+ "]")
      end
  | VDict l =>
      match (fix items (l : list (string * Value)) : Exn + list string :=
               match l with
               | [] => inr []
               | (k, x) :: r =>
                   match json_str k with
                   | inl e => inl e
                   | inr jk =>
                       match json_value x with
                       | inl e => inl e
                       | inr a => match items r with
                                  | inl e => inl e
                                  | inr b => inr ((jk +:+ ": " +:+ a) :: b)
                                  end
                       end
                   end
               end) l with
      | inl e => inl e
      | inr parts => inr ("{" +:+ commas parts +:+ "}")
      end
  end.

(** [json.dumps(d).encode()] *)
Definition dumps_encode (d : Payload) : Exn + bytes :=
  match json_value (VDict (map_to_list d)) with
  | inl e => inl e
  | inr s => inr (list_byte_of_string s)
  end.

Definition append_path (base path : string) : string :=
  if startswith path "/" then base +:+ path else base +:+ "/" +:+ path.

Definition collaborators : Collaborators := {|
  URL := string;
  url_eq_str := String.eqb;
  url_join := append_path;
  Timeout := unit;
  DEFAULT_REQ_TIMEOUT := tt;
  get_auth_header := {[ "Authorization" := "Bearer TOKEN" ]};
  json_dumps_encode := dumps_encode;
  pb_parse_serialize := fun _ _ => inl (OtherError "Sample" "binary schema")
|}.

(** A client whose server answers every request with the same response. *)
Definition answering (r : Response) : @Request collaborators -> bool -> Exn + Response :=
  fun _ _ => inr r.

(** The completions API ([application/json]) on a host. *)
Definition completions (host : string) (endpoint_id : option string)
    (client : @Request collaborators -> bool -> Exn + Response) : @BaseAPI.t collaborators :=
  @BaseAPI.mk collaborators endpoint_id host false "v1/completions" "POST" "application/json"
    V1CompletionsRequest client.

(** An API that posts its payload as [multipart/form-data]. *)
Definition image_edit (host : string) (endpoint_id : option string)
    (client : @Request collaborators -> bool -> Exn + Response) : @BaseAPI.t collaborators :=
  @BaseAPI.mk collaborators endpoint_id host false "v1/images/edit" "POST" "multipart/form-data"
    V1TextToImageRequest client.

(** A completions API whose [_api_path] is the given one. *)
Definition at_path (api_path : string) (endpoint_id : option string)
    : @BaseAPI.t collaborators :=
  @BaseAPI.mk collaborators endpoint_id "https://inference.friendli.ai" false api_path "POST"
    "application/json" V1CompletionsRequest (answering (mkResponse 200 [])).

(** The world before a call: the caller's payload and no operation yet. *)
Definition before (d : Payload) : @World collaborators := @mkWorld collaborators d [].

(** A 200 with an empty JSON object for a body. *)
Definition ok : Response := mkResponse 200 (list_byte_of_string "{}").

(** Serverless completions on the production host. *)
Definition production : @BaseAPI.t collaborators :=
  completions "https://inference.friendli.ai" None (answering ok).

(** Serverless completions on a host of one's own. *)
Definition local : @BaseAPI.t collaborators :=
  completions "http://localhost:8000" None (answering ok).

(** Completions on a dedicated endpoint. *)
Definition dedicated : @BaseAPI.t collaborators :=
  completions "https://inference.friendli.ai" (Some "ep-1") (answering ok).

(** The multipart API on a dedicated endpoint. *)
Definition edit_dedicated : @BaseAPI.t collaborators :=
  image_edit "https://inference.friendli.ai" (Some "ep-1") (answering ok).

(** [{"model": null}] and [{"model": "ep-1"}], as bytes. *)
Definition null_model_body : bytes :=
  list_byte_of_string ("{" +:+ quote +:+ "model" +:+ quote +:+ ": null}").

Definition ep1_model_body : bytes :=
  list_byte_of_string
    ("{" +:+ quote +:+ "model" +:+ quote +:+ ": " +:+ quote +:+ "ep-1" +:+ quote +:+ "}").

(** A payload with one field set and one left null. *)
Definition edit_payload : Payload :=
  <[ "prompt" := VStr "a cat" ]> (<[ "mask" := VNone ]> ∅).

(** A payload JSON cannot carry: one field holds [bytes]. *)
Definition blob_payload : Payload := <[ "image" := VBytes [] ]> ∅.

(** A client whose connection fails. *)
Definition unreachable : @Request collaborators -> bool -> Exn + Response :=
  fun _ _ => inl (OtherError "ConnectError" "connection refused").

(** Serverless completions on the production host, out of reach. *)
Definition offline : @BaseAPI.t collaborators :=
  completions "https://inference.friendli.ai" None unreachable.

(** A 404 and a 500 with plain bodies. *)
Definition not_found : Response := mkResponse 404 (list_byte_of_string "not found").

Definition internal_error : Response :=
  mkResponse 500 (list_byte_of_string "internal error").

(** Serverless completions on the production host, answering 404. *)
Definition missing : @BaseAPI.t collaborators :=
  completions "https://inference.friendli.ai" None (answering not_found).

(** [{"model": "m"}], as bytes. *)
Definition m_model_body : bytes :=
  list_byte_of_string
    ("{" +:+ quote +:+ "model" +:+ quote +:+ ": " +:+ quote +:+ "m" +:+ quote +:+ "}").
End Sample.

(** * Properties *)

(** ** Paths *)

Section Paths.
Implicit Types (a b seg : string).

Lemma startswith_sep b :
  startswith b "/" = true <-> exists r, b = String "/" r.
Proof.
  unfold startswith. destruct b as [|c r]; cbn -[ascii_dec].
  - split; [discriminate | intros [r' Hr]; discriminate].
  - destruct (ascii_dec "/" c) as [<-|Hne].
    + split; [eauto | by destruct r].
    + split; [discriminate | intros [r' Hr]; congruence].
Qed.

(** An absolute second component replaces the first. *)
Lemma os_path_join_absolute a b :
  startswith b "/" = true -> os_path_join a b = b.
Proof. unfold os_path_join. by intros ->. Qed.

(** A relative one is appended to ["dedicated"] after a separator. *)
Lemma os_path_join_dedicated b :
  startswith b "/" = false -> os_path_join "dedicated" b = "dedicated/" +:+ b.
Proof. unfold os_path_join. by intros ->. Qed.

(** Joining onto the empty path gives the second component. *)
Lemma os_path_join_empty b : os_path_join "" b = b.
Proof. unfold os_path_join. by destruct (startswith b "/"). Qed.

Lemma split_sep_cons b : exists h t, split_sep b = h :: t.
Proof.
  destruct b as [|c r]; simpl; [eauto|].
  destruct (Ascii.eqb c "/"); [eauto|].
  destruct (split_sep r); eauto.
Qed.


End Paths.


Section Properties.
Context `{Collaborators}.
Implicit Types (self : BaseAPI.t) (model : option string) (w : World).
Implicit Types (resp : Response) (d : Payload).

(** ** The request builder, step by step *)

Lemma build_content_run self model w :
  _build_content self model w =
  (mkWorld (<["model" := resolved_model self model]> (data w)) (trace w),
   content_of self (<["model" := resolved_model self model]> (data w))).
Proof.
  unfold _build_content, content_of, resolved_model, bind, setitem, get_data, lift, ret.
  destruct (_endpoint_id self) as [endpoint_id|]; simpl;
    destruct (startswith (_content_type self) "multipart/form-data"); try reflexivity;
    destruct (_use_protobuf self); simpl.
  - by destruct (pb_parse_serialize _ _).
  - by destruct (json_dumps_encode _).
  - by destruct (pb_parse_serialize _ _).
  - by destruct (json_dumps_encode _).
Qed.

Lemma build_files_run self w :
  _build_files self w = (w, inr (files_of self (data w))).
Proof.
  unfold _build_files, files_of.
  by destruct (startswith (_content_type self) "multipart/form-data").
Qed.

(** The loop of [_build_files], key by key. *)
Lemma files_lookup d (k : string) :
  map_fold add_file ∅ d !! k = d !! k ≫= file_part.
Proof.
  revert k.
  apply (map_fold_weak_ind
           (fun files d => forall k, files !! k = d !! k ≫= file_part)).
  - intros k. by rewrite !lookup_empty.
  - intros i x m r Hi IH k. unfold add_file.
    destruct (decide (i = k)) as [->|Hne].
    + rewrite lookup_insert_eq. simpl. unfold file_part.
      destruct (is_not_None x).
      * by rewrite lookup_insert_eq.
      * by rewrite IH, Hi.
    + rewrite (lookup_insert_ne m) by done.
      destruct (is_not_None x); [rewrite lookup_insert_ne by done|]; apply IH.
Qed.

(** The file parts are the non-null fields, one part each. *)
Lemma files_as_filter d :
  map_fold add_file ∅ d
  = (fun v => (None, v)) <$> filter (fun kv => is_not_None kv.2 = true) d.
Proof.
  apply map_eq. intros k.
  rewrite files_lookup, lookup_fmap, map_lookup_filter.
  destruct (d !! k) as [v|]; [|done]. simpl. unfold file_part.
  destruct (is_not_None v) eqn:Hv.
  - by rewrite option_guard_True.
  - rewrite option_guard_False; [done|]. simpl. congruence.
Qed.

Lemma is_not_None_true (v : Value) : is_not_None v = true <-> v <> VNone.
Proof. destruct v; simpl; split; congruence. Qed.

Lemma build_request_run self model w :
  _build_request self model w =
  let d' := <["model" := resolved_model self model]> (data w) in
  match content_of self d' with
  | inl e => (mkWorld d' (trace w), inl e)
  | inr content =>
      (logged (mkWorld d' (trace w)) (EvBuildRequest (request_of self content d')),
       inr (request_of self content d'))
  end.
Proof.
  unfold _build_request. unfold bind at 1. unfold ret at 1.
  unfold bind at 1. rewrite build_content_run.
  destruct (content_of self _) as [e|content]; [reflexivity|].
  unfold bind at 1. rewrite build_files_run. reflexivity.
Qed.

(** ** The error translator *)

Lemma sync_check_http_error_run resp w :
  ServingAPI._check_http_error resp w = translated resp w.
Proof.
  unfold ServingAPI._check_http_error, translated, try_except, lift, raise_for_status.
  destruct (is_success resp); [reflexivity|]. simpl.
  destruct (status_code resp =? 404)%Z; [reflexivity|].
  unfold bind, read, emit, ret, lift, decode, raise, logged. simpl.
  by destruct (utf8_decode (resp_body resp)).
Qed.

Lemma async_check_http_error_run resp w :
  AsyncServingAPI._check_http_error resp w = translated resp w.
Proof.
  unfold AsyncServingAPI._check_http_error, translated, try_except, lift, raise_for_status.
  destruct (is_success resp); [reflexivity|]. simpl.
  destruct (status_code resp =? 404)%Z; [reflexivity|].
  unfold bind, read, emit, ret, lift, decode, raise, logged. simpl.
  by destruct (utf8_decode (resp_body resp)).
Qed.

(** ** The executors *)

Lemma sync_request_run self stream model w :
  ServingAPI._request self stream model w =
  match ServingAPI.check_preconditions self model with
  | inl e => (w, inl e)
  | inr _ => performed self stream model w
  end.
Proof.
  unfold ServingAPI._request, performed. unfold bind at 1. unfold lift at 1.
  destruct (ServingAPI.check_preconditions self model) as [e|[]]; [reflexivity|].
  unfold bind at 1.
  destruct (_build_request self model w) as [w1 [e|request]]; [reflexivity|].
  unfold bind at 1. unfold client_send, bind at 1, emit, lift. simpl.
  destruct (_client self request stream) as [e|response]; [reflexivity|].
  unfold bind at 1. rewrite sync_check_http_error_run. fold (logged w1 (EvSend request stream)).
  by destruct (translated response _) as [w3 [e|[]]].
Qed.

Lemma async_request_run self stream model w :
  AsyncServingAPI._request self stream model w =
  match AsyncServingAPI.check_preconditions self model with
  | inl e => (w, inl e)
  | inr _ => performed self stream model w
  end.
Proof.
  unfold AsyncServingAPI._request, performed. unfold bind at 1. unfold lift at 1.
  destruct (AsyncServingAPI.check_preconditions self model) as [e|[]]; [reflexivity|].
  unfold bind at 1.
  destruct (_build_request self model w) as [w1 [e|request]]; [reflexivity|].
  unfold bind at 1. unfold client_send, bind at 1, emit, lift. simpl.
  destruct (_client self request stream) as [e|response]; [reflexivity|].
  unfold bind at 1. rewrite async_check_http_error_run. fold (logged w1 (EvSend request stream)).
  by destruct (translated response _) as [w3 [e|[]]].
Qed.

(** A call whose body serializes, on a client that answers 2xx. *)
Lemma build_request_ok self model w content :
  content_of self (<["model" := resolved_model self model]> (data w)) = inr content ->
  _build_request self model w
  = (logged (mkWorld (<["model" := resolved_model self model]> (data w)) (trace w))
       (EvBuildRequest
          (request_of self content (<["model" := resolved_model self model]> (data w)))),
     inr (request_of self content (<["model" := resolved_model self model]> (data w)))).
Proof. intros Hc. rewrite build_request_run. simpl. by rewrite Hc. Qed.

Lemma performed_ok self stream model w w1 request response :
  _build_request self model w = (w1, inr request) ->
  _client self request stream = inr response ->
  is_success response = true ->
  performed self stream model w = (logged w1 (EvSend request stream), inr response).
Proof.
  intros Hb Hc Hs. unfold performed. rewrite Hb, Hc. unfold translated. by rewrite Hs.
Qed.

(** The checks of the asynchronous executor pass exactly when one of
    the two is set, and fail with the message of the broken rule. *)
Lemma async_check_spec self model :
  AsyncServingAPI.check_preconditions self model =
  if exactly_one self model then inr tt
  else inl (ValueError (precondition_message self)).
Proof.
  unfold AsyncServingAPI.check_preconditions, exactly_one, precondition_message.
  by destruct (is_set (_endpoint_id self)), (is_set model).
Qed.

(** The synchronous executor runs the same checks when the host is the
    production URL or an endpoint id is set. *)
Lemma sync_check_guarded self model :
  url_eq_str (_host self) "https://inference.friendli.ai" = true
  \/ is_set (_endpoint_id self) = true \/ is_set model = true ->
  ServingAPI.check_preconditions self model
  = AsyncServingAPI.check_preconditions self model.
Proof.
  unfold ServingAPI.check_preconditions, AsyncServingAPI.check_preconditions.
  intros [-> | [-> | ->]]; simpl; try reflexivity.
  - by destruct (url_eq_str _ _).
  - destruct (url_eq_str _ _), (is_set (_endpoint_id self)); reflexivity.
Qed.

(** On any other host, a call with neither goes through. *)
Lemma sync_check_unguarded self model :
  url_eq_str (_host self) "https://inference.friendli.ai" = false ->
  is_set (_endpoint_id self) = false ->
  ServingAPI.check_preconditions self model = inr tt.
Proof.
  unfold ServingAPI.check_preconditions. by intros -> ->.
Qed.
End Properties.

(** ** Precondition checks of the executors *)

Section Preconditions.
Context `{Collaborators}.
Implicit Types (self : BaseAPI.t) (model : option string) (w : World).

(** Where the rule of C1 is enforced.  A call breaks the rule when
    [endpoint_id] and [model] are both absent or both present.  The
    asynchronous [_request] then raises the precondition error with the
    world untouched: no request has been built, nothing sent, the payload
    as it was; and its checks pass exactly when one of the two is set.
    The synchronous [_request] does the same when its host is the
    production URL or an endpoint id is set (which covers "both present"
    on every host). *)
Theorem precondition_errors self (stream : bool) model w :
  (AsyncServingAPI.check_preconditions self model = inr tt
   <-> exactly_one self model = true)
  /\ (exactly_one self model = false ->
      AsyncServingAPI._request self stream model w
      = (w, inl (ValueError (precondition_message self))))
  /\ (url_eq_str (_host self) "https://inference.friendli.ai" = true
      \/ is_set (_endpoint_id self) = true ->
      (ServingAPI.check_preconditions self model = inr tt
       <-> exactly_one self model = true)
      /\ (exactly_one self model = false ->
          ServingAPI._request self stream model w
          = (w, inl (ValueError (precondition_message self))))).
Proof.
  assert (Ha : AsyncServingAPI.check_preconditions self model = inr tt
               <-> exactly_one self model = true).
  { rewrite async_check_spec. destruct (exactly_one self model); split; congruence. }
  split; [exact Ha|]. split.
  - intros Hx. rewrite async_request_run, async_check_spec. by rewrite Hx.
  - intros Hg.
    assert (Hs : ServingAPI.check_preconditions self model
                 = AsyncServingAPI.check_preconditions self model).
    { apply sync_check_guarded. tauto. }
    split; [by rewrite Hs|].
    intros Hx. rewrite sync_request_run, Hs, async_check_spec. by rewrite Hx.
Qed.

(** Where the executors of C2 agree.  The two error translators are the
    same function, both executors build their request with the one
    [_build_request], and they run the same checks, raise and return
    alike, whenever the host is the production URL, an endpoint id is set
    or a model is given.  On another host, with neither, the asynchronous
    executor raises and the synchronous one performs the call. *)
Theorem executors_agree self (stream : bool) model w :
  (forall response w',
      ServingAPI._check_http_error response w'
      = AsyncServingAPI._check_http_error response w')
  /\ (url_eq_str (_host self) "https://inference.friendli.ai" = true
      \/ is_set (_endpoint_id self) = true \/ is_set model = true ->
      ServingAPI.check_preconditions self model
      = AsyncServingAPI.check_preconditions self model
      /\ ServingAPI._request self stream model w
         = AsyncServingAPI._request self stream model w)
  /\ (url_eq_str (_host self) "https://inference.friendli.ai" = false ->
      is_set (_endpoint_id self) = false -> is_set model = false ->
      AsyncServingAPI._request self stream model w
      = (w, inl (ValueError "`model` is required for serverless endpoints."))
      /\ ServingAPI._request self stream model w = performed self stream model w).
Proof.
  split; [|split].
  - intros response w'.
    by rewrite sync_check_http_error_run, async_check_http_error_run.
  - intros Hg. pose proof (sync_check_guarded self model Hg) as Hs.
    split; [exact Hs|]. by rewrite sync_request_run, async_request_run, Hs.
  - intros Hh He Hm. split.
    + rewrite async_request_run, async_check_spec.
      unfold exactly_one, precondition_message. by rewrite He, Hm.
    + rewrite sync_request_run. by rewrite (sync_check_unguarded self model Hh He).
Qed.
End Preconditions.

(** On the production host serverless completions called without a model
    stop at the check. *)
Lemma precondition_errors_production :
  url_eq_str (_host Sample.production) "https://inference.friendli.ai" = true
  /\ exactly_one Sample.production None = false
  /\ ServingAPI._request Sample.production false None (Sample.before ∅)
     = (Sample.before ∅, inl (ValueError "`model` is required for serverless endpoints.")).
Proof.
  split; [reflexivity|]. split; [reflexivity|].
  destruct (@precondition_errors Sample.collaborators Sample.production false None
              (Sample.before ∅)) as (_ & _ & Hs).
  destruct (Hs (or_introl eq_refl)) as [_ Hr].
  exact (Hr eq_refl).
Defined.

(** C1, at the input where the code breaks it.  The claim wants a
    precondition error, before any request is built, for a call with
    neither an endpoint id nor a model.  On a host other than the
    production URL the synchronous executor passes such a call through its
    checks, and the request, with [{"model": null}] for a body, is built
    and sent; the asynchronous executor raises on the same call. *)
Lemma sync_call_without_model_is_performed :
  exactly_one Sample.local None = false
  /\ ServingAPI.check_preconditions Sample.local None = inr tt
  /\ ServingAPI._request Sample.local false None (Sample.before ∅)
     = (logged
          (logged (Sample.before (<["model" := VNone]> ∅))
             (EvBuildRequest
                (request_of Sample.local (Some Sample.null_model_body)
                   (<["model" := VNone]> ∅))))
          (EvSend
             (request_of Sample.local (Some Sample.null_model_body)
                (<["model" := VNone]> ∅)) false),
        inr Sample.ok).
Proof.
  split; [reflexivity|]. split; [reflexivity|].
  rewrite sync_request_run.
  change (ServingAPI.check_preconditions Sample.local None) with (@inr Exn unit tt).
  apply performed_ok; [|reflexivity|reflexivity].
  apply (build_request_ok Sample.local None (Sample.before ∅)
           (Some Sample.null_model_body)).
  vm_compute. reflexivity.
Qed.

(** On a dedicated endpoint both executors perform the same call. *)
Lemma executors_agree_dedicated :
  is_set (_endpoint_id Sample.dedicated) = true
  /\ ServingAPI._request Sample.dedicated true None (Sample.before ∅)
     = AsyncServingAPI._request Sample.dedicated true None (Sample.before ∅).
Proof.
  split; [reflexivity|].
  destruct (@executors_agree Sample.collaborators Sample.dedicated true None
              (Sample.before ∅)) as (_ & Hg & _).
  exact (proj2 (Hg (or_intror (or_introl eq_refl)))).
Defined.

(** C2, at the input where the code breaks it.  The claim wants the two
    executors to raise and return under the same conditions.  On a host
    other than the production URL, with neither an endpoint id nor a
    model, the synchronous executor returns the response and the
    asynchronous one raises the precondition error. *)
Lemma executors_differ_without_model :
  snd (ServingAPI._request Sample.local false None (Sample.before ∅))
  = inr Sample.ok
  /\ snd (AsyncServingAPI._request Sample.local false None (Sample.before ∅))
     = inl (ValueError "`model` is required for serverless endpoints.").
Proof. split; vm_compute; reflexivity. Qed.

(** ** The error translator *)

Section Translator.
Context `{Collaborators}.
Implicit Types (self : BaseAPI.t) (model : option string) (w : World).
Implicit Types (response : Response).

Lemma is_success_2xx response :
  is_success response = true <-> (200 <= status_code response <= 299)%Z.
Proof. unfold is_success. rewrite andb_true_iff, !Z.leb_le. tauto. Qed.

(** C3.  On a 404 both translators raise the domain error with the fixed
    guidance message, whatever the body is, the status exception as its
    cause; the world is untouched, so the body has not been read. *)
Theorem not_found_guidance response w :
  status_code response = 404%Z ->
  ServingAPI._check_http_error response w
  = (w, inl (APIError NOT_FOUND_MESSAGE (HTTPStatusError response)))
  /\ AsyncServingAPI._check_http_error response w
     = (w, inl (APIError NOT_FOUND_MESSAGE (HTTPStatusError response))).
Proof.
  intros H404. rewrite sync_check_http_error_run, async_check_http_error_run.
  unfold translated, is_success. rewrite H404. by simpl.
Qed.

(** C4, amended.  On a non-2xx status other than 404 both translators
    read the whole body, and when the body is well-formed UTF-8 they
    raise the domain error whose message is that body, verbatim, with the
    status exception as its cause. *)
Theorem error_body_verbatim response w :
  ~ (200 <= status_code response <= 299)%Z ->
  status_code response <> 404%Z ->
  fst (ServingAPI._check_http_error response w) = logged w (EvRead response)
  /\ fst (AsyncServingAPI._check_http_error response w) = logged w (EvRead response)
  /\ (valid_utf8 (map Byte.to_N (resp_body response)) = true ->
      snd (ServingAPI._check_http_error response w)
      = inl (APIError (string_of_list_byte (resp_body response))
               (HTTPStatusError response))
      /\ snd (AsyncServingAPI._check_http_error response w)
         = inl (APIError (string_of_list_byte (resp_body response))
                  (HTTPStatusError response))).
Proof.
  intros H2xx H404. rewrite sync_check_http_error_run, async_check_http_error_run.
  unfold translated.
  destruct (is_success response) eqn:Hs; [by apply is_success_2xx in Hs|].
  destruct (status_code response =? 404)%Z eqn:Hc; [by apply Z.eqb_eq in Hc|].
  simpl. split; [done|]. split; [done|].
  intros Hv. unfold utf8_decode. by rewrite Hv.
Qed.

(** C8.  On a 2xx both translators raise nothing and leave the world
    alone, and an executor whose checks have passed returns the very
    response the client gave it. *)
Theorem success_is_returned self (stream : bool) model w w1 request response :
  (200 <= status_code response <= 299)%Z ->
  ServingAPI._check_http_error response w = (w, inr tt)
  /\ AsyncServingAPI._check_http_error response w = (w, inr tt)
  /\ (_build_request self model w = (w1, inr request) ->
      _client self request stream = inr response ->
      (ServingAPI.check_preconditions self model = inr tt ->
       ServingAPI._request self stream model w
       = (logged w1 (EvSend request stream), inr response))
      /\ (AsyncServingAPI.check_preconditions self model = inr tt ->
          AsyncServingAPI._request self stream model w
          = (logged w1 (EvSend request stream), inr response))).
Proof.
  intros Hs%is_success_2xx.
  rewrite sync_check_http_error_run, async_check_http_error_run.
  unfold translated at 1 2. rewrite Hs. split; [done|]. split; [done|].
  intros Hb Hc.
  assert (Hp : performed self stream model w
               = (logged w1 (EvSend request stream), inr response)).
  { unfold performed. rewrite Hb, Hc. unfold translated. by rewrite Hs. }
  split; intros Hk.
  - by rewrite sync_request_run, Hk.
  - by rewrite async_request_run, Hk.
Qed.
End Translator.

(** C3 on a 404 whose body is [not found]. *)
Lemma not_found_guidance_example :
  ServingAPI._check_http_error
    (mkResponse 404 (list_byte_of_string "not found")) (Sample.before ∅)
  = (Sample.before ∅,
     inl (APIError NOT_FOUND_MESSAGE
            (HTTPStatusError (mkResponse 404 (list_byte_of_string "not found"))))).
Proof.
  exact (proj1 (@not_found_guidance Sample.collaborators
                  (mkResponse 404 (list_byte_of_string "not found"))
                  (Sample.before ∅) eq_refl)).
Defined.

(** C4 on a 500 whose body is [internal error]. *)
Lemma error_body_verbatim_example :
  snd (ServingAPI._check_http_error
         (mkResponse 500 (list_byte_of_string "internal error")) (Sample.before ∅))
  = inl (APIError "internal error"
           (HTTPStatusError (mkResponse 500 (list_byte_of_string "internal error")))).
Proof.
  destruct (@error_body_verbatim Sample.collaborators
              (mkResponse 500 (list_byte_of_string "internal error"))
              (Sample.before ∅)) as (_ & _ & Hm).
  - simpl. lia.
  - simpl. lia.
  - exact (proj1 (Hm eq_refl)).
Defined.

(** C4 as stated fails on a body that is not UTF-8: the translator reads
    it and the decoding error comes out instead of the domain error. *)
Lemma undecodable_body_raises_decode_error :
  ServingAPI._check_http_error (mkResponse 500 [ Byte.xff ]) (Sample.before ∅)
  = (logged (Sample.before ∅) (EvRead (mkResponse 500 [ Byte.xff ])),
     inl UnicodeDecodeError)
  /\ AsyncServingAPI._check_http_error (mkResponse 500 [ Byte.xff ]) (Sample.before ∅)
     = (logged (Sample.before ∅) (EvRead (mkResponse 500 [ Byte.xff ])),
        inl UnicodeDecodeError).
Proof. split; reflexivity. Qed.

(** C8 on a dedicated endpoint answering 200. *)
Lemma success_is_returned_example :
  ServingAPI._request Sample.dedicated false None (Sample.before ∅)
  = (logged
       (logged (Sample.before (<["model" := VStr "ep-1"]> ∅))
          (EvBuildRequest
             (request_of Sample.dedicated (Some Sample.ep1_model_body)
                (<["model" := VStr "ep-1"]> ∅))))
       (EvSend
          (request_of Sample.dedicated (Some Sample.ep1_model_body)
             (<["model" := VStr "ep-1"]> ∅)) false),
     inr Sample.ok).
Proof.
  assert (H200 : (200 <= status_code Sample.ok <= 299)%Z) by (simpl; lia).
  destruct (@success_is_returned Sample.collaborators Sample.dedicated false None
              (Sample.before ∅)
              (logged (Sample.before (<["model" := VStr "ep-1"]> ∅))
                 (EvBuildRequest
                    (request_of Sample.dedicated (Some Sample.ep1_model_body)
                       (<["model" := VStr "ep-1"]> ∅))))
              (request_of Sample.dedicated (Some Sample.ep1_model_body)
                 (<["model" := VStr "ep-1"]> ∅))
              Sample.ok H200) as (_ & _ & Hr).
  apply Hr; [|reflexivity|reflexivity].
  apply (build_request_ok Sample.dedicated None (Sample.before ∅)
           (Some Sample.ep1_model_body)).
  vm_compute. reflexivity.
Defined.

(** ** Routing: the path of the URL *)

Section Routing.
Context `{Collaborators}.
Implicit Types (self : BaseAPI.t) (model : option string) (w : World).

Lemma build_url_path_dedicated self endpoint_id :
  _endpoint_id self = Some endpoint_id ->
  _build_url_path self = os_path_join "dedicated" (_api_path self).
Proof. unfold _build_url_path. by intros ->. Qed.

Lemma build_url_path_serverless self :
  _endpoint_id self = None -> _build_url_path self = _api_path self.
Proof. unfold _build_url_path. intros ->. apply os_path_join_empty. Qed.



(** C9, amended.  With an endpoint id set and an [_api_path] that begins
    with [/], the join drops the [dedicated] prefix: the path joined to
    the host is [_api_path] alone and the URL is the one of the serverless
    call target, so the endpoint id has no part in it, and the path has a
    [dedicated] segment only if [_api_path] has one of its own. *)
Theorem absolute_api_path self endpoint_id :
  _endpoint_id self = Some endpoint_id ->
  startswith (_api_path self) "/" = true ->
  os_path_join "dedicated" (_api_path self) = _api_path self
  /\ _build_url_path self = _api_path self
  /\ _build_url self = _build_url (serverless self)
  /\ has_segment "dedicated" (_build_url_path self)
     = has_segment "dedicated" (_api_path self).
Proof.
  intros He Ha.
  pose proof (os_path_join_absolute "dedicated" (_api_path self) Ha) as Hj.
  assert (Hp : _build_url_path self = _api_path self).
  { by rewrite (build_url_path_dedicated self endpoint_id He). }
  split; [exact Hj|]. split; [exact Hp|]. split.
  - unfold _build_url. rewrite Hp.
    by rewrite (build_url_path_serverless (serverless self)).
  - by rewrite Hp.
Qed.
End Routing.



(** C9 on an absolute [_api_path]. *)
Lemma absolute_api_path_example :
  _build_url_path (Sample.at_path "/v1/completions" (Some "ep-1")) = "/v1/completions"
  /\ _build_url (Sample.at_path "/v1/completions" (Some "ep-1"))
     = _build_url (Sample.at_path "/v1/completions" None)
  /\ has_segment "dedicated"
       (_build_url_path (Sample.at_path "/v1/completions" (Some "ep-1"))) = false.
Proof.
  destruct (@absolute_api_path Sample.collaborators
              (Sample.at_path "/v1/completions" (Some "ep-1")) "ep-1" eq_refl eq_refl)
    as (_ & Hp & Hu & Hs).
  split; [exact Hp|]. split; [exact Hu|]. rewrite Hs. reflexivity.
Defined.

(** C9 as stated fails when the absolute [_api_path] has the segment
    itself: the path then contains it, and the call is routed under
    [dedicated] although [_api_path] is not relative. *)
Lemma absolute_api_path_with_own_segment :
  startswith (_api_path (Sample.at_path "/dedicated/v1/completions" (Some "ep-1"))) "/" = true
  /\ _build_url_path (Sample.at_path "/dedicated/v1/completions" (Some "ep-1"))
     = "/dedicated/v1/completions"
  /\ has_segment "dedicated"
       (_build_url_path (Sample.at_path "/dedicated/v1/completions" (Some "ep-1"))) = true.
Proof. repeat split; reflexivity. Qed.

(** ** The body, the files and the payload *)

Section Builder.
Context `{Collaborators}.
Implicit Types (self : BaseAPI.t) (model : option string) (w : World).

(** Sending and translating leave the caller's dict as [_build_request]
    left it. *)
Lemma performed_data self (stream : bool) model w :
  data (fst (performed self stream model w))
  = <["model" := resolved_model self model]> (data w).
Proof.
  unfold performed. rewrite build_request_run. simpl.
  destruct (content_of self _) as [e|content]; [reflexivity|].
  destruct (_client self _ stream) as [e|response]; [reflexivity|].
  unfold translated.
  destruct (is_success response); [reflexivity|].
  destruct (status_code response =? 404)%Z; [reflexivity|].
  by destruct (utf8_decode (resp_body response)).
Qed.

(** C6.  [_build_content] stores the endpoint id under ["model"] when
    there is one and the caller's [model] argument otherwise, touches no
    other key and no client, and what it serializes (with the binary
    schema or as JSON) is the payload after that store. *)
Theorem model_injection self model w :
  (forall endpoint_id,
      _endpoint_id self = Some endpoint_id ->
      data (fst (_build_content self model w)) !! "model" = Some (VStr endpoint_id))
  /\ (_endpoint_id self = None ->
      data (fst (_build_content self model w)) !! "model" = Some (of_optional model))
  /\ (forall k, k <> "model" ->
        data (fst (_build_content self model w)) !! k = data w !! k)
  /\ trace (fst (_build_content self model w)) = trace w
  /\ snd (_build_content self model w)
     = if startswith (_content_type self) "multipart/form-data" then inr None
       else if _use_protobuf self
            then some_content (pb_parse_serialize (_request_pb_cls self)
                                 (data (fst (_build_content self model w))))
            else some_content (json_dumps_encode
                                 (data (fst (_build_content self model w)))).
Proof.
  rewrite build_content_run. simpl. unfold resolved_model, content_of.
  split; [|split; [|split; [|split]]].
  - intros endpoint_id ->. apply lookup_insert_eq.
  - intros ->. apply lookup_insert_eq.
  - intros k Hk. by apply lookup_insert_ne.
  - reflexivity.
  - reflexivity.
Qed.

(** C7.  For a multipart content type [_build_content] returns no body,
    and [_build_files] returns one part for each field whose value is
    not [None], under the field's key, with no filename and the field's
    value; a field holding [None] has no part.  The built request has no
    content and carries the parts of the payload it was built from. *)
Theorem multipart_parts self model w :
  startswith (_content_type self) "multipart/form-data" = true ->
  snd (_build_content self model w) = inr None
  /\ (exists files,
        _build_files self w = (w, inr (Some files))
        /\ (forall k v, files !! k = Some (None, v)
                        <-> data w !! k = Some v /\ v <> VNone)
        /\ (forall k part, files !! k = Some part -> part.1 = None)
        /\ (forall k, data w !! k = Some VNone -> files !! k = None)
        /\ size files = size (filter (fun kv => is_not_None kv.2 = true) (data w)))
  /\ (exists w' request,
        _build_request self model w = (w', inr request)
        /\ req_content request = None
        /\ req_files request = Some (map_fold add_file ∅ (data w'))).
Proof.
  intros Hm. split; [|split].
  - rewrite build_content_run. simpl. unfold content_of. by rewrite Hm.
  - exists (map_fold add_file ∅ (data w)).
    split; [rewrite build_files_run; unfold files_of; by rewrite Hm|].
    split; [|split; [|split]].
    + intros k v. rewrite files_lookup.
      destruct (data w !! k) as [v'|]; simpl.
      * unfold file_part. destruct (is_not_None v') eqn:Hv.
        -- apply is_not_None_true in Hv. split.
           ++ by intros [= <-].
           ++ by intros [[= <-] _].
        -- split; [discriminate|]. intros [[= <-] Hne].
           apply is_not_None_true in Hne. congruence.
      * split; [discriminate | by intros [? _]].
    + intros k part. rewrite files_lookup.
      destruct (data w !! k) as [v'|]; simpl; [|discriminate].
      unfold file_part. destruct (is_not_None v'); [|discriminate].
      by intros [= <-].
    + intros k Hk. by rewrite files_lookup, Hk.
    + rewrite files_as_filter. apply map_size_fmap.
  - rewrite build_request_run. simpl. unfold content_of. rewrite Hm.
    eexists _, _. split; [reflexivity|]. simpl.
    split; [reflexivity|]. unfold files_of. by rewrite Hm.
Qed.

(** C10.  For a multipart content type and a resolved model [m] that is
    not [None], the request [_build_request] builds has a file part
    under ["model"] holding [m], because the files are taken from the
    dict after [_build_content] has stored the model in it: taken
    before, from a payload without that key, they would have no such
    part.  The caller's dict holds [m] under ["model"] when
    [_build_request] returns, and still does when an executor whose
    checks have passed returns or raises. *)
Theorem multipart_model_part self (stream : bool) model w (m : string) :
  startswith (_content_type self) "multipart/form-data" = true ->
  resolved_model self model = VStr m ->
  (exists w' request files,
      _build_request self model w = (w', inr request)
      /\ req_files request = Some files
      /\ files !! "model" = Some (None, VStr m)
      /\ data w' !! "model" = Some (VStr m))
  /\ (forall files0,
        _build_files self w = (w, inr (Some files0)) ->
        data w !! "model" = None -> files0 !! "model" = None)
  /\ (ServingAPI.check_preconditions self model = inr tt ->
      data (fst (ServingAPI._request self stream model w)) !! "model"
      = Some (VStr m))
  /\ (AsyncServingAPI.check_preconditions self model = inr tt ->
      data (fst (AsyncServingAPI._request self stream model w)) !! "model"
      = Some (VStr m)).
Proof.
  intros Hm Hr. split; [|split; [|split]].
  - rewrite build_request_run. simpl. unfold content_of. rewrite Hm, Hr.
    eexists _, _, _. split; [reflexivity|]. simpl. unfold files_of. rewrite Hm.
    split; [reflexivity|]. split; [|apply lookup_insert_eq].
    by rewrite files_lookup, lookup_insert_eq.
  - intros files0. rewrite build_files_run. unfold files_of. rewrite Hm.
    intros [= <-] Hnone. by rewrite files_lookup, Hnone.
  - intros Hk. rewrite sync_request_run, Hk, performed_data, Hr.
    apply lookup_insert_eq.
  - intros Hk. rewrite async_request_run, Hk, performed_data, Hr.
    apply lookup_insert_eq.
Qed.
End Builder.

(** C7 on a payload with one field set and one left null. *)
Lemma multipart_parts_example :
  snd (_build_content Sample.edit_dedicated None (Sample.before Sample.edit_payload))
  = inr None
  /\ exists files,
      _build_files Sample.edit_dedicated (Sample.before Sample.edit_payload)
      = (Sample.before Sample.edit_payload, inr (Some files))
      /\ files !! "prompt" = Some (None, VStr "a cat")
      /\ files !! "mask" = None.
Proof.
  destruct (@multipart_parts Sample.collaborators Sample.edit_dedicated None
              (Sample.before Sample.edit_payload) eq_refl)
    as (Hc & (files & Hf & Hset & _ & Hnull & _) & _).
  split; [exact Hc|]. exists files. split; [exact Hf|]. split.
  - apply Hset. split; [reflexivity | discriminate].
  - apply Hnull. reflexivity.
Defined.

(** C10 on a dedicated multipart call. *)
Lemma multipart_model_part_example :
  exists w' request files,
    _build_request Sample.edit_dedicated None (Sample.before Sample.edit_payload)
    = (w', inr request)
    /\ req_files request = Some files
    /\ files !! "model" = Some (None, VStr "ep-1")
    /\ data w' !! "model" = Some (VStr "ep-1").
Proof.
  exact (proj1 (@multipart_model_part Sample.collaborators Sample.edit_dedicated
                  false None (Sample.before Sample.edit_payload) "ep-1"
                  eq_refl eq_refl)).
Defined.

(** C6 on a dedicated endpoint: the endpoint id is stored and serialized. *)
Lemma model_injection_example :
  data (fst (_build_content Sample.dedicated None (Sample.before ∅))) !! "model"
  = Some (VStr "ep-1")
  /\ snd (_build_content Sample.dedicated None (Sample.before ∅))
     = some_content
         (Sample.dumps_encode
            (data (fst (_build_content Sample.dedicated None (Sample.before ∅))))).
Proof.
  destruct (@model_injection Sample.collaborators Sample.dedicated None
              (Sample.before ∅)) as (He & _ & _ & _ & Hs).
  split; [exact (He "ep-1" eq_refl) | exact Hs].
Defined.


(** * Further properties of the request builder *)

Section Requests.
Context `{Collaborators}.
Implicit Types (self : BaseAPI.t) (model : option string) (w : World).

(** X1.  The headers of a request are the auth headers, each as the auth
    provider gave it, and [Content-Type]: the declared content type,
    unless the auth provider has a header of that name, which then wins.
    Nothing else is in them, and the built request carries exactly these
    headers, the declared method and the default timeout. *)
Theorem headers_of_request self :
  (forall k v, get_auth_header !! k = Some v -> _get_headers self !! k = Some v)
  /\ (get_auth_header !! "Content-Type" = None ->
      _get_headers self !! "Content-Type" = Some (_content_type self))
  /\ (forall k v,
        _get_headers self !! k = Some v ->
        get_auth_header !! k = Some v
        \/ (k = "Content-Type" /\ v = _content_type self))
  /\ (forall model w w' request,
        _build_request self model w = (w', inr request) ->
        req_headers request = _get_headers self
        /\ req_method request = _method self
        /\ req_timeout request = DEFAULT_REQ_TIMEOUT).
Proof.
  unfold _get_headers. split; [|split; [|split]].
  - intros k v Hk. by apply lookup_union_Some_l.
  - intros Hnone. rewrite lookup_union_r by done. apply lookup_singleton_eq.
  - intros k v [Hl|[_ Hr]]%lookup_union_Some_raw; [by left|]. right.
    apply lookup_singleton_Some in Hr as [<- <-]. done.
  - intros model w w' request. rewrite build_request_run. simpl.
    destruct (content_of self _) as [e|content]; [discriminate|].
    by intros [= _ <-].
Qed.


(** X3.  When the payload does not serialize, [_build_request] raises the
    serializer's error as it is: no request is built and nothing is sent,
    yet the model is already stored in the caller's dict.  An executor
    whose checks have passed ends the same way. *)
Theorem serialization_error_propagates self (stream : bool) model w e :
  content_of self (<["model" := resolved_model self model]> (data w)) = inl e ->
  _build_request self model w
  = (mkWorld (<["model" := resolved_model self model]> (data w)) (trace w), inl e)
  /\ (ServingAPI.check_preconditions self model = inr tt ->
      ServingAPI._request self stream model w
      = (mkWorld (<["model" := resolved_model self model]> (data w)) (trace w), inl e))
  /\ (AsyncServingAPI.check_preconditions self model = inr tt ->
      AsyncServingAPI._request self stream model w
      = (mkWorld (<["model" := resolved_model self model]> (data w)) (trace w), inl e)).
Proof.
  intros Hc.
  assert (Hb : _build_request self model w
               = (mkWorld (<["model" := resolved_model self model]> (data w)) (trace w),
                  inl e)).
  { rewrite build_request_run. simpl. by rewrite Hc. }
  split; [exact Hb|]. split; intros Hk.
  - rewrite sync_request_run, Hk. unfold performed. by rewrite Hb.
  - rewrite async_request_run, Hk. unfold performed. by rewrite Hb.
Qed.

End Requests.

(** X1 on the completions API: the bearer token and the JSON content type. *)
Lemma headers_of_request_example :
  _get_headers Sample.dedicated !! "Authorization" = Some "Bearer TOKEN"
  /\ _get_headers Sample.dedicated !! "Content-Type" = Some "application/json".
Proof.
  destruct (@headers_of_request Sample.collaborators Sample.dedicated)
    as (Ha & Hc & _ & _).
  split.
  - apply Ha. apply lookup_singleton_eq.
  - apply Hc. apply lookup_singleton_ne. discriminate.
Defined.


(** X3 on a payload holding [bytes], posted as JSON. *)
Lemma serialization_error_propagates_example :
  ServingAPI._request Sample.local false (Some "m") (Sample.before Sample.blob_payload)
  = (Sample.before (<["model" := VStr "m"]> Sample.blob_payload),
     inl (OtherError "TypeError" "Object of type bytes is not JSON serializable")).
Proof.
  destruct (@serialization_error_propagates Sample.collaborators Sample.local false
              (Some "m") (Sample.before Sample.blob_payload)
              (OtherError "TypeError" "Object of type bytes is not JSON serializable"))
    as (_ & Hs & _).
  - vm_compute. reflexivity.
  - apply Hs. reflexivity.
Defined.


(** * Further properties of the executors *)

Section Calls.
Context `{Collaborators}.
Local Open Scope list_scope.
Implicit Types (self : BaseAPI.t) (model : option string) (w : World).
Implicit Types (response : Response).

Lemma trace_logged w (e : Event) : trace (logged w e) = trace w ++ [e].
Proof. reflexivity. Qed.

Lemma data_logged w (e : Event) : data (logged w e) = data w.
Proof. reflexivity. Qed.

(** Traces of nested [logged] worlds, flattened. *)
Ltac flatten_trace :=
  simpl; rewrite ?trace_logged; simpl; rewrite <- ?app_assoc; simpl; try reflexivity.

(** A call that goes through [performed] and comes back with a response. *)
Lemma performed_returns self (stream : bool) model w w' response :
  performed self stream model w = (w', inr response) ->
  (200 <= status_code response <= 299)%Z
  /\ exists request,
      _client self request stream = inr response
      /\ trace w' = trace w ++ [EvBuildRequest request; EvSend request stream]
      /\ data w' = <["model" := resolved_model self model]> (data w).
Proof.
  unfold performed. rewrite build_request_run. simpl.
  destruct (content_of self _) as [e|content]; [discriminate|].
  destruct (_client self _ stream) as [e|response'] eqn:Hc; [discriminate|].
  unfold translated.
  destruct (is_success response') eqn:Hs.
  - intros [= <- <-]. split; [by apply is_success_2xx|].
    eexists. split; [exact Hc|]. split; [flatten_trace|reflexivity].
  - destruct (status_code response' =? 404)%Z; [discriminate|].
    by destruct (utf8_decode (resp_body response')).
Qed.

(** The operations of a call that goes through [performed]. *)
Lemma performed_trace self (stream : bool) model w :
  trace (fst (performed self stream model w)) = trace w
  \/ exists request,
      trace (fst (performed self stream model w))
      = trace w ++ [EvBuildRequest request; EvSend request stream]
      \/ exists response,
          _client self request stream = inr response
          /\ trace (fst (performed self stream model w))
             = trace w ++ [EvBuildRequest request; EvSend request stream;
                           EvRead response].
Proof.
  unfold performed. rewrite build_request_run. simpl.
  destruct (content_of self _) as [e|content]; [by left|]. right.
  eexists. destruct (_client self _ stream) as [e|response] eqn:Hc.
  - left. flatten_trace.
  - unfold translated. destruct (is_success response).
    + left. flatten_trace.
    + destruct (status_code response =? 404)%Z.
      * left. flatten_trace.
      * right. exists response. split; [exact Hc|].
        destruct (utf8_decode (resp_body response)); flatten_trace.
Qed.

(** X5.  A transport error of the client comes out of both executors as it
    is, not wrapped in the domain error: the request was built and sent
    once, and the error translator has not run. *)
Theorem transport_error_propagates self (stream : bool) model w w1 request e :
  _build_request self model w = (w1, inr request) ->
  _client self request stream = inl e ->
  (ServingAPI.check_preconditions self model = inr tt ->
   ServingAPI._request self stream model w
   = (logged w1 (EvSend request stream), inl e))
  /\ (AsyncServingAPI.check_preconditions self model = inr tt ->
      AsyncServingAPI._request self stream model w
      = (logged w1 (EvSend request stream), inl e)).
Proof.
  intros Hb Hc.
  assert (Hp : performed self stream model w
               = (logged w1 (EvSend request stream), inl e)).
  { unfold performed. by rewrite Hb, Hc. }
  split; intros Hk.
  - by rewrite sync_request_run, Hk.
  - by rewrite async_request_run, Hk.
Qed.

(** X6.  An executor returns a response only if its status is 2xx: the
    response is the one the client gave for the request that was built,
    one request was built and sent with the caller's stream flag, the body
    was not read, and the model is in the caller's dict. *)
Theorem returned_response_is_success self (stream : bool) model w w' response :
  ServingAPI._request self stream model w = (w', inr response)
  \/ AsyncServingAPI._request self stream model w = (w', inr response) ->
  (200 <= status_code response <= 299)%Z
  /\ exists request,
      _client self request stream = inr response
      /\ trace w' = trace w ++ [EvBuildRequest request; EvSend request stream]
      /\ data w' = <["model" := resolved_model self model]> (data w).
Proof.
  intros [Hr|Hr].
  - rewrite sync_request_run in Hr.
    destruct (ServingAPI.check_preconditions self model) as [e|[]]; [discriminate|].
    by apply performed_returns in Hr.
  - rewrite async_request_run in Hr.
    destruct (AsyncServingAPI.check_preconditions self model) as [e|[]]; [discriminate|].
    by apply performed_returns in Hr.
Qed.

(** X7.  No retry and no second request: whatever the outcome, a call
    adds to the trace either nothing, or one request built and that same
    request sent once with the caller's stream flag, followed at most by
    one read of the response the client gave. *)
Theorem one_request_one_send self (stream : bool) model w :
  forall run,
    run = ServingAPI._request self stream model w
    \/ run = AsyncServingAPI._request self stream model w ->
    trace (fst run) = trace w
    \/ exists request,
        trace (fst run) = trace w ++ [EvBuildRequest request; EvSend request stream]
        \/ exists response,
            _client self request stream = inr response
            /\ trace (fst run)
               = trace w ++ [EvBuildRequest request; EvSend request stream;
                             EvRead response].
Proof.
  intros run [-> | ->].
  - rewrite sync_request_run.
    destruct (ServingAPI.check_preconditions self model) as [e|[]]; [by left|].
    apply performed_trace.
  - rewrite async_request_run.
    destruct (AsyncServingAPI.check_preconditions self model) as [e|[]]; [by left|].
    apply performed_trace.
Qed.

(** X8.  When the client answers with a non-2xx status, an executor whose
    checks have passed raises what the error translator raises and does
    not return: on a 404 the guidance error, with the body unread; on any
    other status, after one read, the error made of the body when it is
    well-formed UTF-8. *)
Theorem error_status_is_raised self (stream : bool) model w w1 request response :
  _build_request self model w = (w1, inr request) ->
  _client self request stream = inr response ->
  ~ (200 <= status_code response <= 299)%Z ->
  forall run,
    (ServingAPI.check_preconditions self model = inr tt
     /\ run = ServingAPI._request self stream model w)
    \/ (AsyncServingAPI.check_preconditions self model = inr tt
        /\ run = AsyncServingAPI._request self stream model w) ->
    (status_code response = 404%Z ->
     run = (logged w1 (EvSend request stream),
            inl (APIError NOT_FOUND_MESSAGE (HTTPStatusError response))))
    /\ (status_code response <> 404%Z ->
        valid_utf8 (map Byte.to_N (resp_body response)) = true ->
        run = (logged (logged w1 (EvSend request stream)) (EvRead response),
               inl (APIError (string_of_list_byte (resp_body response))
                      (HTTPStatusError response)))).
Proof.
  intros Hb Hc H2xx run Hrun.
  assert (Hs : is_success response = false).
  { destruct (is_success response) eqn:Hs; [by apply is_success_2xx in Hs|done]. }
  assert (Hp : run = performed self stream model w).
  { destruct Hrun as [[Hk ->]|[Hk ->]].
    - by rewrite sync_request_run, Hk.
    - by rewrite async_request_run, Hk. }
  rewrite Hp. unfold performed. rewrite Hb, Hc. unfold translated. rewrite Hs.
  split.
  - intros H404. by rewrite H404.
  - intros H404 Hv. apply Z.eqb_neq in H404. rewrite H404.
    unfold utf8_decode. by rewrite Hv.
Qed.

(** X9.  The raw status exception never leaves the error translator: when
    it raises, the status is not 2xx, the caller's dict is untouched, and
    the error is the domain error with the status exception of that
    response as its cause, or the decoding error of the body. *)
Theorem translator_errors response w w' e :
  ServingAPI._check_http_error response w = (w', inl e)
  \/ AsyncServingAPI._check_http_error response w = (w', inl e) ->
  ~ (200 <= status_code response <= 299)%Z
  /\ data w' = data w
  /\ ((exists msg, e = APIError msg (HTTPStatusError response))
      \/ (e = UnicodeDecodeError /\ status_code response <> 404%Z
          /\ valid_utf8 (map Byte.to_N (resp_body response)) = false)).
Proof.
  rewrite sync_check_http_error_run, async_check_http_error_run.
  intros Ht. assert (Ht' : translated response w = (w', inl e)) by tauto.
  clear Ht. revert Ht'. unfold translated.
  destruct (is_success response) eqn:Hs; [discriminate|].
  assert (H2xx : ~ (200 <= status_code response <= 299)%Z).
  { intros Hr. apply is_success_2xx in Hr. congruence. }
  destruct (status_code response =? 404)%Z eqn:H404.
  - intros [= <- <-]. eauto.
  - unfold utf8_decode.
    destruct (valid_utf8 (map Byte.to_N (resp_body response))) eqn:Hv;
      intros [= <- <-]; (split; [done|]); (split; [done|]).
    + eauto.
    + right. apply Z.eqb_neq in H404. done.
Qed.

(** X11.  An executor never changes a payload field other than ["model"],
    whatever the outcome; and when its checks fail it leaves ["model"]
    alone as well. *)
Theorem payload_frame self (stream : bool) model w (k : string) :
  k <> "model" ->
  data (fst (ServingAPI._request self stream model w)) !! k = data w !! k
  /\ data (fst (AsyncServingAPI._request self stream model w)) !! k = data w !! k.
Proof.
  intros Hk. rewrite sync_request_run, async_request_run. split.
  - destruct (ServingAPI.check_preconditions self model) as [e|[]]; [done|].
    rewrite performed_data. by apply lookup_insert_ne.
  - destruct (AsyncServingAPI.check_preconditions self model) as [e|[]]; [done|].
    rewrite performed_data. by apply lookup_insert_ne.
Qed.
End Calls.

(** ** The path, for every object *)

Section PathOfEveryObject.
Context `{Collaborators}.
Implicit Types (self : BaseAPI.t).

(** X12.  [_build_url] never alters [_api_path], it only may put
    ["dedicated/"] before it: it does so exactly when an endpoint id is set
    and [_api_path] is relative, and in every other case the host is joined
    with [_api_path] as it is. *)
Theorem url_path_of_every_object self :
  _build_url_path self
  = (if is_set (_endpoint_id self) && negb (startswith (_api_path self) "/")
     then "dedicated/" +:+ _api_path self
     else _api_path self)
  /\ _build_url self
     = url_join (_host self)
         (if is_set (_endpoint_id self) && negb (startswith (_api_path self) "/")
          then "dedicated/" +:+ _api_path self
          else _api_path self).
Proof.
  assert (Hp : _build_url_path self
               = if is_set (_endpoint_id self) && negb (startswith (_api_path self) "/")
                 then "dedicated/" +:+ _api_path self
                 else _api_path self).
  { destruct (_endpoint_id self) as [endpoint_id|] eqn:He; simpl.
    - rewrite (build_url_path_dedicated self endpoint_id He).
      destruct (startswith (_api_path self) "/") eqn:Ha; simpl.
      + by apply os_path_join_absolute.
      + by apply os_path_join_dedicated.
    - by apply build_url_path_serverless. }
  split; [exact Hp|]. unfold _build_url. by rewrite Hp.
Qed.
End PathOfEveryObject.

(** ** Bodies of ASCII text *)

Section Ascii.
Context `{Collaborators}.
Implicit Types (w : World) (response : Response).

(** ASCII is well-formed UTF-8. *)
Lemma valid_utf8_ascii (l : list N) :
  forallb (fun n => (n <=? 0x7F)%N) l = true -> valid_utf8 l = true.
Proof.
  induction l as [|b0 r0 IH]; [reflexivity|].
  intros [Hb Hr]%andb_true_iff. simpl in Hb.
  change (valid_utf8 (b0 :: r0))
    with (if (b0 <=? 0x7F)%N then valid_utf8 r0
          else match r0 with
               | [] => false
               | b1 :: r1 =>
                   if two_ok b0 b1 then valid_utf8 r1
                   else match r1 with
                        | [] => false
                        | b2 :: r2 =>
                            if three_ok b0 b1 b2 then valid_utf8 r2
                            else match r2 with
                                 | [] => false
                                 | b3 :: r3 => four_ok b0 b1 b2 b3 && valid_utf8 r3
                                 end
                        end
               end).
  rewrite Hb. by apply IH.
Qed.

Lemma forallb_bytes (f : N -> bool) (b : bytes) :
  forallb f (map Byte.to_N b) = forallb (fun x => f (Byte.to_N x)) b.
Proof. induction b as [|x r IH]; [reflexivity|]. simpl. by rewrite IH. Qed.

(** X10.  A body of ASCII bytes always decodes: on a non-2xx status other
    than 404 both translators raise the domain error whose message is the
    body, and encoding the message gives the body back. *)
Theorem ascii_body_is_message response w :
  ~ (200 <= status_code response <= 299)%Z ->
  status_code response <> 404%Z ->
  forallb (fun b => (Byte.to_N b <=? 0x7F)%N) (resp_body response) = true ->
  ServingAPI._check_http_error response w
  = (logged w (EvRead response),
     inl (APIError (string_of_list_byte (resp_body response))
            (HTTPStatusError response)))
  /\ AsyncServingAPI._check_http_error response w
     = (logged w (EvRead response),
        inl (APIError (string_of_list_byte (resp_body response))
               (HTTPStatusError response)))
  /\ list_byte_of_string (string_of_list_byte (resp_body response))
     = resp_body response.
Proof.
  intros H2xx H404 Hascii.
  assert (Hv : valid_utf8 (map Byte.to_N (resp_body response)) = true).
  { apply valid_utf8_ascii. by rewrite forallb_bytes. }
  rewrite sync_check_http_error_run, async_check_http_error_run.
  unfold translated.
  destruct (is_success response) eqn:Hs; [by apply is_success_2xx in Hs|].
  apply Z.eqb_neq in H404. rewrite H404.
  unfold utf8_decode. rewrite Hv.
  split; [done|]. split; [done|]. apply list_byte_of_string_of_list_byte.
Qed.
End Ascii.

(** ** The further properties on sample calls *)

(** A dedicated completions call on a server that answers 200. *)
Lemma dedicated_call_returns :
  ServingAPI._request Sample.dedicated false None (Sample.before ∅)
  = (logged
       (logged (Sample.before (<["model" := VStr "ep-1"]> ∅))
          (EvBuildRequest
             (request_of Sample.dedicated (Some Sample.ep1_model_body)
                (<["model" := VStr "ep-1"]> ∅))))
       (EvSend
          (request_of Sample.dedicated (Some Sample.ep1_model_body)
             (<["model" := VStr "ep-1"]> ∅)) false),
     inr Sample.ok).
Proof.
  rewrite sync_request_run.
  change (ServingAPI.check_preconditions Sample.dedicated None) with (@inr Exn unit tt).
  apply performed_ok; [|reflexivity|reflexivity].
  apply (build_request_ok Sample.dedicated None (Sample.before ∅)
           (Some Sample.ep1_model_body)).
  vm_compute. reflexivity.
Qed.

(** The request of a serverless call for model [m]. *)
Lemma serverless_request_built (api : @BaseAPI.t Sample.collaborators) :
  _endpoint_id api = None ->
  _content_type api = "application/json" ->
  _use_protobuf api = false ->
  _build_request api (Some "m") (Sample.before ∅)
  = (logged (Sample.before (<["model" := VStr "m"]> ∅))
       (EvBuildRequest
          (request_of api (Some Sample.m_model_body) (<["model" := VStr "m"]> ∅))),
     inr (request_of api (Some Sample.m_model_body) (<["model" := VStr "m"]> ∅))).
Proof.
  intros He Hc Hp.
  assert (Hr : resolved_model api (Some "m") = VStr "m").
  { unfold resolved_model. by rewrite He. }
  rewrite (build_request_ok api (Some "m") (Sample.before ∅) (Some Sample.m_model_body)).
  - by rewrite Hr.
  - rewrite Hr. unfold content_of. rewrite Hc, Hp. vm_compute. reflexivity.
Qed.

(** X5 on a server out of reach. *)
Lemma transport_error_propagates_example :
  ServingAPI._request Sample.offline false (Some "m") (Sample.before ∅)
  = (logged
       (logged (Sample.before (<["model" := VStr "m"]> ∅))
          (EvBuildRequest
             (request_of Sample.offline (Some Sample.m_model_body)
                (<["model" := VStr "m"]> ∅))))
       (EvSend
          (request_of Sample.offline (Some Sample.m_model_body)
             (<["model" := VStr "m"]> ∅)) false),
     inl (OtherError "ConnectError" "connection refused")).
Proof.
  apply (proj1 (@transport_error_propagates Sample.collaborators Sample.offline false
                  (Some "m") (Sample.before ∅) _ _ _
                  (serverless_request_built Sample.offline eq_refl eq_refl eq_refl)
                  eq_refl)).
  reflexivity.
Defined.

(** X6 on the dedicated call that returned. *)
Lemma returned_response_is_success_example :
  (200 <= status_code Sample.ok <= 299)%Z
  /\ exists request,
      _client Sample.dedicated request false = inr Sample.ok
      /\ trace
           (logged
              (logged (Sample.before (<["model" := VStr "ep-1"]> ∅))
                 (EvBuildRequest
                    (request_of Sample.dedicated (Some Sample.ep1_model_body)
                       (<["model" := VStr "ep-1"]> ∅))))
              (EvSend
                 (request_of Sample.dedicated (Some Sample.ep1_model_body)
                    (<["model" := VStr "ep-1"]> ∅)) false))
         = (trace (Sample.before ∅)
            ++ [EvBuildRequest request; EvSend request false])%list
      /\ data
           (logged
              (logged (Sample.before (<["model" := VStr "ep-1"]> ∅))
                 (EvBuildRequest
                    (request_of Sample.dedicated (Some Sample.ep1_model_body)
                       (<["model" := VStr "ep-1"]> ∅))))
              (EvSend
                 (request_of Sample.dedicated (Some Sample.ep1_model_body)
                    (<["model" := VStr "ep-1"]> ∅)) false))
         = <["model" := resolved_model Sample.dedicated None]> (data (Sample.before ∅)).
Proof.
  exact (@returned_response_is_success Sample.collaborators Sample.dedicated false None
           (Sample.before ∅) _ Sample.ok (or_introl dedicated_call_returns)).
Defined.

(** X7 on a serverless call that stops at the check. *)
Lemma one_request_one_send_example :
  trace (fst (ServingAPI._request Sample.production false None (Sample.before ∅)))
  = trace (Sample.before ∅)
  \/ exists request,
      trace (fst (ServingAPI._request Sample.production false None (Sample.before ∅)))
      = (trace (Sample.before ∅) ++ [EvBuildRequest request; EvSend request false])%list
      \/ exists response,
          _client Sample.production request false = inr response
          /\ trace (fst (ServingAPI._request Sample.production false None
                           (Sample.before ∅)))
             = (trace (Sample.before ∅)
                ++ [EvBuildRequest request; EvSend request false; EvRead response])%list.
Proof.
  exact (@one_request_one_send Sample.collaborators Sample.production false None
           (Sample.before ∅) _ (or_introl eq_refl)).
Defined.

(** X8 on a server that answers 404. *)
Lemma error_status_is_raised_example :
  ServingAPI._request Sample.missing false (Some "m") (Sample.before ∅)
  = (logged
       (logged (Sample.before (<["model" := VStr "m"]> ∅))
          (EvBuildRequest
             (request_of Sample.missing (Some Sample.m_model_body)
                (<["model" := VStr "m"]> ∅))))
       (EvSend
          (request_of Sample.missing (Some Sample.m_model_body)
             (<["model" := VStr "m"]> ∅)) false),
     inl (APIError NOT_FOUND_MESSAGE (HTTPStatusError Sample.not_found))).
Proof.
  assert (H2xx : ~ (200 <= status_code Sample.not_found <= 299)%Z) by (simpl; lia).
  destruct (@error_status_is_raised Sample.collaborators Sample.missing false
              (Some "m") (Sample.before ∅) _ _ Sample.not_found
              (serverless_request_built Sample.missing eq_refl eq_refl eq_refl)
              eq_refl H2xx
              (ServingAPI._request Sample.missing false (Some "m") (Sample.before ∅))
              (or_introl (conj eq_refl eq_refl))) as [H404 _].
  exact (H404 eq_refl).
Defined.

(** X9 on a 500 with a plain body. *)
Lemma translator_errors_example :
  ~ (200 <= status_code Sample.internal_error <= 299)%Z
  /\ data (logged (Sample.before ∅) (EvRead Sample.internal_error))
     = data (Sample.before ∅)
  /\ ((exists msg,
         APIError "internal error" (HTTPStatusError Sample.internal_error)
         = APIError msg (HTTPStatusError Sample.internal_error))
      \/ (APIError "internal error" (HTTPStatusError Sample.internal_error)
          = UnicodeDecodeError
          /\ status_code Sample.internal_error <> 404%Z
          /\ valid_utf8 (map Byte.to_N (resp_body Sample.internal_error)) = false)).
Proof.
  apply (@translator_errors Sample.collaborators Sample.internal_error
           (Sample.before ∅)).
  left. reflexivity.
Defined.

(** X10 on a 500 whose body is [internal error]. *)
Lemma ascii_body_is_message_example :
  ServingAPI._check_http_error Sample.internal_error (Sample.before ∅)
  = (logged (Sample.before ∅) (EvRead Sample.internal_error),
     inl (APIError "internal error" (HTTPStatusError Sample.internal_error))).
Proof.
  refine (proj1 (@ascii_body_is_message Sample.collaborators Sample.internal_error
                   (Sample.before ∅) _ _ eq_refl)); simpl; lia.
Defined.

(** X11 on a multipart call: the prompt stays as the caller wrote it. *)
Lemma payload_frame_example :
  data (fst (ServingAPI._request Sample.edit_dedicated false None
               (Sample.before Sample.edit_payload))) !! "prompt"
  = data (Sample.before Sample.edit_payload) !! "prompt".
Proof.
  refine (proj1 (@payload_frame Sample.collaborators Sample.edit_dedicated false None
                   (Sample.before Sample.edit_payload) "prompt" _)).
  discriminate.
Defined.
